(** * The strategy dashboard page ([dashboard/src/app/page.tsx])

    A shallow embedding of the [Home] component: its three state cells, the
    asynchronous click handler [handleRun], the element tree [Home] returns,
    and the event loop that drives them. *)

From Stdlib Require Import Ascii String List Bool Arith Lia.
From Stdlib Require Import ZArith.
From Stdlib Require Import Floats.PrimFloat.
From ExtLib Require Import Structures.Monad Data.Monads.EitherMonad.
Import ListNotations.
Import MonadNotation.
Local Open Scope string_scope.
Local Open Scope list_scope.
Local Open Scope monad_scope.
Set Warnings "-register-all,-inexact-float".

(** ** JavaScript values *)

(** The values a state cell or a JSX expression of the page can hold: what
    [res.json()] produces, plus [undefined], which reading a missing property
    yields. Numbers are IEEE binary64, as in the language. An object is kept
    as its list of own properties. *)
Inductive value : Type :=
| VUndefined
| VNull
| VBool (b : bool)
| VNum (x : float)
| VStr (s : string)
| VArr (items : list value)
| VObj (fields : list (string * value)).

(** A thrown JavaScript error: its constructor name and its message. *)
Record Error : Type := mkError { err_name : string; err_message : string }.

Definition TypeError (msg : string) : Error := mkError "TypeError" msg.

(** The monad of a synchronous expression that may throw. *)
Definition Js : Type -> Type := sum Error.

Definition throw {A : Type} (e : Error) : Js A := inl e.

Definition is_nan (x : float) : bool := negb (PrimFloat.eqb x x).

(** ToBoolean: [undefined], [null], [false], [+0], [-0], [NaN] and the empty
    string are falsy, every other value (all arrays and objects) is truthy. *)
Definition truthy (v : value) : bool :=
  match v with
  | VUndefined | VNull => false
  | VBool b => b
  | VNum x => negb (PrimFloat.eqb x 0%float || is_nan x)
  | VStr s => negb (String.eqb s "")
  | VArr _ | VObj _ => true
  end.

Fixpoint lookup_field (k : string) (fields : list (string * value)) : value :=
  match fields with
  | [] => VUndefined
  | (k', v) :: rest => if String.eqb k k' then v else lookup_field k rest
  end.

(** The member expression [v.k], for a name [k] that is no built-in property
    of strings, numbers, booleans or arrays (true of the eight names the page
    reads). On [undefined] and [null] it throws a [TypeError]; on an object it
    reads the own property; on any other value it is [undefined]. *)
Definition get_prop (v : value) (k : string) : Js value :=
  match v with
  | VUndefined => throw (TypeError ("Cannot read properties of undefined (reading '" ++ k ++ "')")%string)
  | VNull => throw (TypeError ("Cannot read properties of null (reading '" ++ k ++ "')")%string)
  | VObj fields => ret (lookup_field k fields)
  | VBool _ | VNum _ | VStr _ | VArr _ => ret VUndefined
  end.

(** ** The network *)

(** The [init] argument of [fetch]. The body is the text [JSON.stringify]
    returns, kept as the value it serialises. *)
Inductive JsonText : Type := JSON_stringify (v : value).

Record RequestInit : Type := mkInit {
  method : string;
  headers : list (string * string);
  body : JsonText
}.

(** A response as the page uses it: the status code, which the page never
    reads, and what the promise of [res.json()] settles to, the parsed body
    or the error of a body that is no JSON text. *)
Record Response : Type := mkResponse {
  status : Z;
  json : Error + value
}.

(** ** The component state *)

Record State : Type := mkState {
  prompt : string;
  loading : bool;
  result : value
}.

(** [useState("")], [useState(false)], [useState(null)]. *)
Definition initial_state : State := mkState "" false VNull.

(** ** Asynchronous handlers *)

(** A handler is a tree of the effects it performs. The two [Await]
    constructors are the suspension points: the continuation receives what the
    awaited promise settled to. *)
Inductive Prog (A : Type) : Type :=
| Ret (a : A)
| Throw (e : Error)
| SetPrompt (s : string) (k : Prog A)
| SetLoading (b : bool) (k : Prog A)
| SetResult (v : value) (k : Prog A)
| ConsoleError (msg : string) (e : Error) (k : Prog A)
| AwaitFetch (url : string) (init : RequestInit) (k : Error + Response -> Prog A)
| AwaitJson (r : Response) (k : Error + value -> Prog A).

Arguments Ret {A} a.
Arguments Throw {A} e.
Arguments SetPrompt {A} s k.
Arguments SetLoading {A} b k.
Arguments SetResult {A} v k.
Arguments ConsoleError {A} msg e k.
Arguments AwaitFetch {A} url init k.
Arguments AwaitJson {A} r k.

Fixpoint prog_bind {A B : Type} (p : Prog A) (f : A -> Prog B) : Prog B :=
  match p with
  | Ret a => f a
  | Throw e => Throw e
  | SetPrompt s k => SetPrompt s (prog_bind k f)
  | SetLoading b k => SetLoading b (prog_bind k f)
  | SetResult v k => SetResult v (prog_bind k f)
  | ConsoleError msg e k => ConsoleError msg e (prog_bind k f)
  | AwaitFetch url init k => AwaitFetch url init (fun o => prog_bind (k o) f)
  | AwaitJson r k => AwaitJson r (fun o => prog_bind (k o) f)
  end.

#[global] Instance Monad_Prog : Monad Prog :=
  {| ret := @Ret; bind := @prog_bind |}.

(** [try { p } catch (err) { h err }] *)
Fixpoint try_catch {A : Type} (p : Prog A) (h : Error -> Prog A) : Prog A :=
  match p with
  | Ret a => Ret a
  | Throw e => h e
  | SetPrompt s k => SetPrompt s (try_catch k h)
  | SetLoading b k => SetLoading b (try_catch k h)
  | SetResult v k => SetResult v (try_catch k h)
  | ConsoleError msg e k => ConsoleError msg e (try_catch k h)
  | AwaitFetch url init k => AwaitFetch url init (fun o => try_catch (k o) h)
  | AwaitJson r k => AwaitJson r (fun o => try_catch (k o) h)
  end.

(** [try { p } finally { f }]: [f] runs on both exits of [p], and the exit of
    [p] is resumed when [f] completes normally. *)
Fixpoint try_finally {A : Type} (p : Prog A) (f : Prog unit) : Prog A :=
  match p with
  | Ret a => f ;; Ret a
  | Throw e => f ;; Throw e
  | SetPrompt s k => SetPrompt s (try_finally k f)
  | SetLoading b k => SetLoading b (try_finally k f)
  | SetResult v k => SetResult v (try_finally k f)
  | ConsoleError msg e k => ConsoleError msg e (try_finally k f)
  | AwaitFetch url init k => AwaitFetch url init (fun o => try_finally (k o) f)
  | AwaitJson r k => AwaitJson r (fun o => try_finally (k o) f)
  end.

Definition try_catch_finally {A : Type}
    (p : Prog A) (h : Error -> Prog A) (f : Prog unit) : Prog A :=
  try_finally (try_catch p h) f.

(** An awaited promise that rejected throws at the [await]. *)
Definition settled {A : Type} (o : Error + A) : Prog A :=
  match o with
  | inl e => Throw e
  | inr a => Ret a
  end.

Definition setPrompt (s : string) : Prog unit := SetPrompt s (Ret tt).
Definition setLoading (b : bool) : Prog unit := SetLoading b (Ret tt).
Definition setResult (v : value) : Prog unit := SetResult v (Ret tt).
Definition console_error (msg : string) (e : Error) : Prog unit :=
  ConsoleError msg e (Ret tt).
Definition await_fetch (url : string) (init : RequestInit) : Prog Response :=
  AwaitFetch url init settled.
Definition await_json (r : Response) : Prog value :=
  AwaitJson r settled.

(** [handleRun], closed over the [prompt] of the render that created it. *)
Definition handleRun (prompt : string) : Prog unit :=
  setLoading true ;;
  setResult VNull ;;
  try_catch_finally
    (res <- await_fetch "http://localhost:8000/run-strategy"
              {| method := "POST";
                 headers := [("Content-Type", "application/json")];
                 body := JSON_stringify (VObj [("prompt", VStr prompt)]) |} ;;
     data <- await_json res ;;
     setResult data)
    (fun err => console_error "Failed to run strategy" err)
    (setLoading false).

(** ** The element tree *)

(** The event object of [onChange], reduced to the one field the page reads. *)
Record ChangeEvent : Type := mkChange { target_value : string }.

Inductive Attr : Type :=
| AStr (s : string)
| ABool (b : bool)
| AOnClick (h : Prog unit)
| AOnChange (h : ChangeEvent -> Prog unit).

(** What a JSX expression evaluates to: an element with its attributes and
    children, or a JavaScript value in child position ([{e}], or literal text,
    which is a string child). Components imported from [@/components/ui] and
    [next/head] stay elements under their own names. *)
Inductive Node : Type :=
| El (tag : string) (attrs : list (string * Attr)) (children : list Node)
| Expr (v : value).

Definition Text (s : string) : Node := Expr (VStr s).
Definition className (c : string) : string * Attr := ("className", AStr c).

(** [{a && (b)}] in child position. *)
Definition jsx_and (a : value) (b : Js Node) : Js Node :=
  if truthy a then b else ret (Expr a).

(** Lines 58-63: the loading placeholder. *)
Definition placeholder : Node :=
  El "div" [className "space-y-4"]
    [ El "Skeleton" [className "h-6 w-1/2"] [];
      El "Skeleton" [className "h-4 w-3/4"] [];
      El "Skeleton" [className "h-4 w-full"] [];
      El "Skeleton" [className "h-4 w-5/6"] [] ].

(** Lines 67-81: the result card. The member expressions are evaluated in
    source order, and the first that throws aborts the render. *)
Definition result_panel (result : value) : Js Node :=
  strategy_name <- (o <- get_prop result "strategy" ;; get_prop o "strategy_name") ;;
  description <- (o <- get_prop result "strategy" ;; get_prop o "description") ;;
  sharpe_ratio <- (o <- get_prop result "results" ;; get_prop o "sharpe_ratio") ;;
  win_rate <- (o <- get_prop result "results" ;; get_prop o "win_rate") ;;
  average_return <- (o <- get_prop result "results" ;; get_prop o "average_return") ;;
  explanation <- get_prop result "explanation" ;;
  ret (El "Card" [className "mt-4 max-w-3xl"]
        [ El "CardContent" [className "p-4 space-y-2"]
            [ El "h2" [className "text-lg font-semibold"] [Expr strategy_name];
              El "p" [className "text-sm text-muted-foreground"] [Expr description];
              El "div" [className "pt-2"]
                [ El "strong" [] [Text "Sharpe:"]; Text " "; Expr sharpe_ratio;
                  Text " | ";
                  El "strong" [] [Text "Win Rate:"]; Text " "; Expr win_rate;
                  Text " | ";
                  El "strong" [] [Text "Avg Return:"]; Text " "; Expr average_return ];
              El "div" [className "pt-2"]
                [ El "strong" [] [Text "Explanation:"];
                  El "p" [className "text-sm mt-1 whitespace-pre-line"]
                    [Expr explanation] ] ] ]).

(** Lines 45-50. *)
Definition prompt_input (s : State) : Node :=
  El "Textarea"
    [ ("placeholder", AStr "Enter your strategy prompt here...");
      ("value", AStr (prompt s));
      ("onChange", AOnChange (fun e => setPrompt (target_value e)));
      className "w-full max-w-2xl mb-4" ]
    [].

(** Lines 52-54. *)
Definition submit_control (s : State) : Node :=
  El "Button"
    [ ("onClick", AOnClick (handleRun (prompt s)));
      ("disabled", ABool (loading s)) ]
    [ Text (if loading s then "Running..." else "Run Strategy") ].

(** Lines 56-83: the two conditional children of the result area. *)
Definition result_area (s : State) : Js Node :=
  skeleton <- jsx_and (VBool (loading s)) (ret placeholder) ;;
  panel <- jsx_and (result s) (result_panel (result s)) ;;
  ret (El "div" [className "mt-8"] [skeleton; panel]).

(** Lines 37-85: the returned fragment around the result area. *)
Definition page (s : State) (area : Node) : Node :=
  El "Fragment" []
    [ El "Head" [] [El "title" [] [Text "Quant Strategy Dashboard"]];
      El "main" [className "min-h-screen p-6 bg-gray-50"]
        [ El "h1" [className "text-2xl font-bold mb-4"]
            [Text "Quant Strategy Generator"];
          prompt_input s;
          submit_control s;
          area ] ].

(** The value the component function returns for a state, or the error its
    evaluation throws. *)
Definition Home (s : State) : Js Node :=
  area <- result_area s ;;
  ret (page s area).

(** ** What is displayed *)

(** The tree React builds from an element tree: elements, text and numbers. *)
Inductive Dom : Type :=
| DText (s : string)
| DNumber (x : float)
| DEl (tag : string) (attrs : list (string * Attr)) (children : list Dom).

(** A value in child position: booleans, [null] and [undefined] produce
    nothing, as does the empty string; a string or a number becomes text; an
    array contributes its items; a plain object is refused with an error. *)
Fixpoint mount_value (v : value) : Js (list Dom) :=
  match v with
  | VUndefined | VNull | VBool _ => ret []
  | VStr s => if String.eqb s "" then ret [] else ret [DText s]
  | VNum x => ret [DNumber x]
  | VArr items =>
      (fix go (l : list value) : Js (list Dom) :=
         match l with
         | [] => ret []
         | i :: l' => a <- mount_value i ;; b <- go l' ;; ret (a ++ b)
         end) items
  | VObj _ => throw (mkError "Error" "Objects are not valid as a React child")
  end.

(** Modelled from the spec: the components imported from [@/components/ui]
    and [next/head] are not among the sources; an element of theirs is kept
    under its name around what its children display. *)
Fixpoint mount (n : Node) : Js (list Dom) :=
  match n with
  | Expr v => mount_value v
  | El tag attrs children =>
      cs <- (fix go (l : list Node) : Js (list Dom) :=
               match l with
               | [] => ret []
               | c :: l' => a <- mount c ;; b <- go l' ;; ret (a ++ b)
               end) children ;;
      ret [DEl tag attrs cs]
  end.

(** Rendering a state: evaluate the component, then build its tree. *)
Definition render (s : State) : Js (list Dom) :=
  view <- Home s ;; mount view.

(** The displayed content of the result area. *)
Definition render_area (s : State) : Js (list Dom) :=
  area <- result_area s ;; mount area.

(** First element with the given tag, in document order. *)
Fixpoint find_tag (t : string) (n : Node) : option Node :=
  match n with
  | Expr _ => None
  | El tag _ children =>
      if String.eqb tag t then Some n
      else
        (fix go (l : list Node) : option Node :=
           match l with
           | [] => None
           | c :: l' =>
               match find_tag t c with
               | Some x => Some x
               | None => go l'
               end
           end) children
  end.

(** Number of elements with the given tag. *)
Fixpoint count_tag (t : string) (n : Node) : nat :=
  match n with
  | Expr _ => 0
  | El tag _ children =>
      (if String.eqb tag t then 1 else 0) +
      (fix go (l : list Node) : nat :=
         match l with
         | [] => 0
         | c :: l' => count_tag t c + go l'
         end) children
  end.

Fixpoint assoc {A : Type} (k : string) (l : list (string * A)) : option A :=
  match l with
  | [] => None
  | (k', a) :: rest => if String.eqb k k' then Some a else assoc k rest
  end.

Definition attr (k : string) (n : Node) : option Attr :=
  match n with
  | El _ attrs _ => assoc k attrs
  | Expr _ => None
  end.

Definition children_of (n : Node) : list Node :=
  match n with
  | El _ _ children => children
  | Expr _ => []
  end.

(** ** The page in its environment *)

(** Everything the page does that is visible from outside, in order. *)
Inductive Obs : Type :=
| OSetPrompt (s : string)
| OSetLoading (b : bool)
| OSetResult (v : value)
| OFetch (url : string) (init : RequestInit)
| OJson (r : Response)
| OConsoleError (msg : string) (e : Error)
| OUncaught (e : Error).

(** A handler suspended at an [await]. *)
Inductive Task : Type :=
| TFetch (k : Error + Response -> Prog unit)
| TJson (r : Response) (k : Error + value -> Prog unit).

Record World : Type := mkWorld {
  st : State;
  trace : list Obs;
  pending : list Task
}.

Definition initial_world : World := mkWorld initial_state [] [].

Definition emit (o : Obs) (w : World) : World :=
  mkWorld (st w) (trace w ++ [o]) (pending w).

Definition update (f : State -> State) (w : World) : World :=
  mkWorld (f (st w)) (trace w) (pending w).

Definition suspend (t : Task) (w : World) : World :=
  mkWorld (st w) (trace w) (pending w ++ [t]).

Definition with_prompt (p : string) (s : State) : State :=
  mkState p (loading s) (result s).
Definition with_loading (b : bool) (s : State) : State :=
  mkState (prompt s) b (result s).
Definition with_result (v : value) (s : State) : State :=
  mkState (prompt s) (loading s) v.

(** Runs a handler until it finishes or suspends. The state updates of one
    run are committed together: the states between two events are the
    rendered ones. An error that escapes the handler is recorded. *)
Fixpoint run_sync (p : Prog unit) (w : World) : World :=
  match p with
  | Ret _ => w
  | Throw e => emit (OUncaught e) w
  | SetPrompt s k => run_sync k (update (with_prompt s) (emit (OSetPrompt s) w))
  | SetLoading b k => run_sync k (update (with_loading b) (emit (OSetLoading b) w))
  | SetResult v k => run_sync k (update (with_result v) (emit (OSetResult v) w))
  | ConsoleError msg e k => run_sync k (emit (OConsoleError msg e) w)
  | AwaitFetch url init k => suspend (TFetch k) (emit (OFetch url init) w)
  | AwaitJson r k => suspend (TJson r k) (emit (OJson r) w)
  end.

Fixpoint remove_at {A : Type} (i : nat) (l : list A) : list A :=
  match i, l with
  | _, [] => []
  | O, _ :: l' => l'
  | S i', a :: l' => a :: remove_at i' l'
  end.

Definition resume (i : nat) (w : World) : World :=
  mkWorld (st w) (trace w) (remove_at i (pending w)).

Inductive Event : Type :=
| EType (s : string)
| EClick
| EFetchSettles (i : nat) (o : Error + Response)
| EJsonSettles (i : nat).

(** Modelled from the spec: [Textarea] comes from [@/components/ui/textarea],
    which is not among the sources; as the prompt input of the specification,
    it reports every edit to its [onChange] handler. The user replaces the
    content of the box by [s]: the handler of the rendered [Textarea] runs on
    an event whose target holds [s]. There is nothing to type into when the
    render threw. *)
Definition type_into (s : string) (w : World) : World :=
  match Home (st w) with
  | inl _ => w
  | inr view =>
      match find_tag "Textarea" view with
      | Some box =>
          match attr "onChange" box with
          | Some (AOnChange h) => run_sync (h (mkChange s)) w
          | _ => w
          end
      | None => w
      end
  end.

(** Modelled from the spec: [Button] comes from [@/components/ui/button],
    which is not among the sources; as the submit control of the
    specification, it is disabled exactly when its [disabled] attribute is
    true. The user clicks the rendered [Button]: a disabled button dispatches
    no click, an enabled one runs its [onClick] handler. *)
Definition click (w : World) : World :=
  match Home (st w) with
  | inl _ => w
  | inr view =>
      match find_tag "Button" view with
      | Some button =>
          match attr "disabled" button, attr "onClick" button with
          | Some (ABool true), _ => w
          | _, Some (AOnClick h) => run_sync h w
          | _, _ => w
          end
      | None => w
      end
  end.

(** The awaited promise of the [i]-th suspended handler settles and the
    handler resumes. *)
Definition fetch_settles (i : nat) (o : Error + Response) (w : World) : World :=
  match nth_error (pending w) i with
  | Some (TFetch k) => run_sync (k o) (resume i w)
  | _ => w
  end.

Definition json_settles (i : nat) (w : World) : World :=
  match nth_error (pending w) i with
  | Some (TJson r k) => run_sync (k (json r)) (resume i w)
  | _ => w
  end.

Definition step (w : World) (ev : Event) : World :=
  match ev with
  | EType s => type_into s w
  | EClick => click w
  | EFetchSettles i o => fetch_settles i o w
  | EJsonSettles i => json_settles i w
  end.

Definition run (evs : list Event) (w : World) : World := fold_left step evs w.

(** ** One execution of [handleRun] *)

(** A direct call of the handler the current render created. *)
Definition invoke (w : World) : World := run_sync (handleRun (prompt (st w))) w.

Definition typing (l : list string) : list Event := map EType l.

(** The events of one execution after the call: the request settles to [o]
    and, when it resolved, the body read settles too; the user may edit the
    prompt before and after the request settles. The suspended handler sits
    at position [i]. *)
Definition settling (i : nat) (o : Error + Response) (e1 e2 : list string)
  : list Event :=
  typing e1 ++ [EFetchSettles i o] ++ typing e2 ++
  match o with
  | inl _ => []
  | inr _ => [EJsonSettles i]
  end.

Definition execution (w : World) (o : Error + Response) (e1 e2 : list string)
  : World :=
  run (settling (length (pending w)) o e1 e2) (invoke w).

(** What the network interaction produced: the parsed body, or the error of
    the request or of the parse. *)
Definition outcome (o : Error + Response) : Error + value :=
  match o with
  | inl e => inl e
  | inr r => json r
  end.

(** ** Resumption points of [handleRun] *)

(** The [catch] block. *)
Definition on_error (err : Error) : Prog unit :=
  console_error "Failed to run strategy" err.

(** The rest of the handler once the request has settled. *)
Definition after_fetch (o : Error + Response) : Prog unit :=
  try_catch_finally
    (res <- settled o ;; data <- await_json res ;; setResult data)
    on_error (setLoading false).

(** The rest of the handler once the body read has settled. *)
Definition after_json (o : Error + value) : Prog unit :=
  try_catch_finally (data <- settled o ;; setResult data)
    on_error (setLoading false).

(** The second argument of the [fetch] call for the prompt [p]. *)
Definition run_strategy_init (p : string) : RequestInit :=
  {| method := "POST";
     headers := [("Content-Type", "application/json")];
     body := JSON_stringify (VObj [("prompt", VStr p)]) |}.

(** ** Vocabulary of the statements *)

(** The requests sent, the console entries written, the errors that escaped
    a handler and the strings written to the prompt, in order. *)
Fixpoint requests (t : list Obs) : list (string * RequestInit) :=
  match t with
  | [] => []
  | OFetch url init :: t' => (url, init) :: requests t'
  | _ :: t' => requests t'
  end.

Fixpoint console (t : list Obs) : list (string * Error) :=
  match t with
  | [] => []
  | OConsoleError msg e :: t' => (msg, e) :: console t'
  | _ :: t' => console t'
  end.

Fixpoint uncaught (t : list Obs) : list Error :=
  match t with
  | [] => []
  | OUncaught e :: t' => e :: uncaught t'
  | _ :: t' => uncaught t'
  end.

Fixpoint prompt_writes (t : list Obs) : list string :=
  match t with
  | [] => []
  | OSetPrompt s :: t' => s :: prompt_writes t'
  | _ :: t' => prompt_writes t'
  end.

(** The trace once the handler has been called and is suspended on the
    request. *)
Definition started (w : World) : list Obs :=
  trace w ++ [OSetLoading true; OSetResult VNull;
              OFetch "http://localhost:8000/run-strategy"
                (run_strategy_init (prompt (st w)))].

(** What the [catch] and [finally] blocks do. *)
Definition failure_log (e : Error) : list Obs :=
  [OConsoleError "Failed to run strategy" e; OSetLoading false].

(** A suspended handler is [handleRun] at one of its two [await]s. *)
Definition handler_task (t : Task) : Prop :=
  t = TFetch after_fetch \/ exists r, t = TJson r after_json.

(** What every reachable world satisfies: no result is held while loading,
    the suspended handlers are those of the page, at most one of them is in
    flight, and one is in flight exactly while loading. *)
Record Inv (w : World) : Prop := mkInv {
  inv_absent : loading (st w) = true -> result (st w) = VNull;
  inv_tasks : Forall handler_task (pending w);
  inv_single : length (pending w) <= 1;
  inv_idle : loading (st w) = false <-> pending w = []
}.

Definition is_typing (ev : Event) : bool :=
  match ev with
  | EType _ => true
  | _ => false
  end.

(** The two ways an execution can end. *)
Definition holds_parsed (o : Error + Response) (w : World) : Prop :=
  exists v, outcome o = inr v /\ result (st w) = v.

Definition absent_by_failure (o : Error + Response) (w : World) : Prop :=
  exists e, outcome o = inl e /\ result (st w) = VNull.

(** Modelled from the spec: the submit control is enabled unless its
    [disabled] attribute is true (see [click]). *)
Definition enabled (n : Node) : bool :=
  match attr "disabled" n with
  | Some (ABool true) => false
  | _ => true
  end.

(** [undefined] or [null]. *)
Definition nullish (v : value) : bool :=
  match v with
  | VUndefined | VNull => true
  | _ => false
  end.

(** The value of [v.k] where the read does not throw. *)
Definition member (v : value) (k : string) : value :=
  match get_prop v k with
  | inr x => x
  | inl _ => VUndefined
  end.

Definition is_string (v : value) : bool :=
  match v with
  | VStr _ => true
  | _ => false
  end.

(** A metric: a number or a string. *)
Definition is_display (v : value) : bool :=
  match v with
  | VStr _ | VNum _ => true
  | _ => false
  end.

(** The shape of a strategy result in the data model of the specification:
    an object whose [strategy] holds the strings [strategy_name] and
    [description], whose [results] holds three numbers or strings, and whose
    [explanation] is a string. *)
Definition StrategyResult (v : value) : bool :=
  match member v "strategy", member v "results" with
  | VObj strategy, VObj results =>
      is_string (lookup_field "strategy_name" strategy) &&
      is_string (lookup_field "description" strategy) &&
      is_display (lookup_field "sharpe_ratio" results) &&
      is_display (lookup_field "win_rate" results) &&
      is_display (lookup_field "average_return" results) &&
      is_string (member v "explanation")
  | _, _ => false
  end.

(** Two lines of text separated by a line feed. *)
Definition two_lines : string := ("Line1" ++ String "010"%char "Line2")%string.

(** The response body of the example in the specification. *)
Definition momentum : value :=
  VObj [("strategy", VObj [("strategy_name", VStr "Momentum");
                           ("description", VStr "Buys winners")]);
        ("results", VObj [("sharpe_ratio", VNum 1.2);
                          ("win_rate", VNum 0.55);
                          ("average_return", VNum 0.03)]);
        ("explanation", VStr two_lines)].

(** ** Vocabulary of the event loop *)

(** Number of calls [setLoading(b)] in a trace. *)
Fixpoint count_loading (b : bool) (t : list Obs) : nat :=
  match t with
  | [] => 0
  | OSetLoading b' :: t' => (if Bool.eqb b b' then 1 else 0) + count_loading b t'
  | _ :: t' => count_loading b t'
  end.

(** The steps the page takes from a world that satisfies [Inv]: an event is
    ignored, or it is one of the six moves of the page. *)
Inductive Step (w : World) : Event -> World -> Prop :=
| Step_ignored (ev : Event) : Step w ev w
| Step_typed (s : string) :
    Step w (EType s)
      (mkWorld (with_prompt s (st w)) (trace w ++ [OSetPrompt s]) (pending w))
| Step_clicked :
    loading (st w) = false -> pending w = [] ->
    Step w EClick
      (mkWorld (mkState (prompt (st w)) true VNull) (started w) [TFetch after_fetch])
| Step_rejected (e : Error) :
    pending w = [TFetch after_fetch] ->
    Step w (EFetchSettles 0 (inl e))
      (mkWorld (with_loading false (st w)) (trace w ++ failure_log e) [])
| Step_resolved (r : Response) :
    pending w = [TFetch after_fetch] ->
    Step w (EFetchSettles 0 (inr r))
      (mkWorld (st w) (trace w ++ [OJson r]) [TJson r after_json])
| Step_malformed (r : Response) (e : Error) :
    pending w = [TJson r after_json] -> json r = inl e ->
    Step w (EJsonSettles 0)
      (mkWorld (with_loading false (st w)) (trace w ++ failure_log e) [])
| Step_parsed (r : Response) (v : value) :
    pending w = [TJson r after_json] -> json r = inr v ->
    Step w (EJsonSettles 0)
      (mkWorld (mkState (prompt (st w)) false v)
         (trace w ++ [OSetResult v; OSetLoading false]) []).

(** A request of the page for the prompt [p]. *)
Definition run_strategy_request (p : string) : string * RequestInit :=
  ("http://localhost:8000/run-strategy", run_strategy_init p).

(** Some plain object occurs in [v], directly or inside arrays. *)
Fixpoint has_object (v : value) : bool :=
  match v with
  | VObj _ => true
  | VArr items =>
      (fix any (l : list value) : bool :=
         match l with
         | [] => false
         | i :: l' => has_object i || any l'
         end) items
  | _ => false
  end.

(** The results the page can display: the falsy ones, and the truthy ones
    whose [strategy] and [results] are neither [undefined] nor [null] and
    whose six displayed members contain no plain object. *)
Definition displayable (v : value) : bool :=
  if truthy v then
    negb (nullish (member v "strategy")) &&
    negb (nullish (member v "results")) &&
    negb (has_object (member (member v "strategy") "strategy_name")) &&
    negb (has_object (member (member v "strategy") "description")) &&
    negb (has_object (member (member v "results") "sharpe_ratio")) &&
    negb (has_object (member (member v "results") "win_rate")) &&
    negb (has_object (member (member v "results") "average_return")) &&
    negb (has_object (member v "explanation"))
  else true.

(** The event is a click. *)
Definition is_click (ev : Event) : bool :=
  match ev with
  | EClick => true
  | _ => false
  end.

(** The object that holds the six members the card reads, and nothing
    else. *)
Definition canonical (a1 a2 a3 a4 a5 a6 : value) : value :=
  VObj [("strategy", VObj [("strategy_name", a1); ("description", a2)]);
        ("results", VObj [("sharpe_ratio", a3); ("win_rate", a4);
                          ("average_return", a5)]);
        ("explanation", a6)].

(** * Lemmas *)

Lemma handleRun_unfold (p : string) :
  handleRun p =
  SetLoading true
    (SetResult VNull
       (AwaitFetch "http://localhost:8000/run-strategy" (run_strategy_init p)
          after_fetch)).
Proof. reflexivity. Qed.

Lemma after_fetch_rejected (e : Error) :
  after_fetch (inl e) =
  ConsoleError "Failed to run strategy" e (SetLoading false (Ret tt)).
Proof. reflexivity. Qed.

Lemma after_fetch_resolved (r : Response) :
  after_fetch (inr r) = AwaitJson r after_json.
Proof. reflexivity. Qed.

Lemma after_json_rejected (e : Error) :
  after_json (inl e) =
  ConsoleError "Failed to run strategy" e (SetLoading false (Ret tt)).
Proof. reflexivity. Qed.

Lemma after_json_resolved (v : value) :
  after_json (inr v) = SetResult v (SetLoading false (Ret tt)).
Proof. reflexivity. Qed.

(** ** Projections of the trace *)

Lemma requests_app (a b : list Obs) : requests (a ++ b) = requests a ++ requests b.
Proof.
  induction a as [|o a IH]; [reflexivity|].
  destruct o; simpl; rewrite IH; reflexivity.
Qed.

Lemma console_app (a b : list Obs) : console (a ++ b) = console a ++ console b.
Proof.
  induction a as [|o a IH]; [reflexivity|].
  destruct o; simpl; rewrite IH; reflexivity.
Qed.

Lemma uncaught_app (a b : list Obs) : uncaught (a ++ b) = uncaught a ++ uncaught b.
Proof.
  induction a as [|o a IH]; [reflexivity|].
  destruct o; simpl; rewrite IH; reflexivity.
Qed.

Lemma prompt_writes_app (a b : list Obs) :
  prompt_writes (a ++ b) = prompt_writes a ++ prompt_writes b.
Proof.
  induction a as [|o a IH]; [reflexivity|].
  destruct o; simpl; rewrite IH; reflexivity.
Qed.

Lemma requests_edits (l : list string) : requests (map OSetPrompt l) = [].
Proof. induction l; simpl; auto. Qed.

Lemma console_edits (l : list string) : console (map OSetPrompt l) = [].
Proof. induction l; simpl; auto. Qed.

Lemma uncaught_edits (l : list string) : uncaught (map OSetPrompt l) = [].
Proof. induction l; simpl; auto. Qed.

Lemma prompt_writes_edits (l : list string) : prompt_writes (map OSetPrompt l) = l.
Proof. induction l; simpl; congruence. Qed.

Create Rewrite HintDb trace_db.
#[global] Hint Rewrite requests_app console_app uncaught_app prompt_writes_app
  requests_edits console_edits uncaught_edits prompt_writes_edits
  app_nil_r : trace_db.

(** ** Single steps, computed *)

Lemma nth_error_last {A : Type} (l : list A) (a : A) :
  nth_error (l ++ [a]) (length l) = Some a.
Proof. induction l; simpl; auto. Qed.

Lemma remove_at_last {A : Type} (l : list A) (a : A) :
  remove_at (length l) (l ++ [a]) = l.
Proof. induction l; simpl; congruence. Qed.

Lemma invoke_spec (w : World) :
  invoke w =
  mkWorld (mkState (prompt (st w)) true VNull)
    (trace w ++ [OSetLoading true; OSetResult VNull;
                 OFetch "http://localhost:8000/run-strategy"
                   (run_strategy_init (prompt (st w)))])
    (pending w ++ [TFetch after_fetch]).
Proof.
  destruct w as [[p l r] t q]. unfold invoke. simpl.
  unfold suspend, emit, update. simpl.
  rewrite <- !app_assoc. reflexivity.
Qed.

(** While no result is held the page renders, and typing reaches [setPrompt]. *)
Lemma type_into_absent (s : string) (w : World) :
  result (st w) = VNull ->
  type_into s w =
  mkWorld (mkState s (loading (st w)) VNull) (trace w ++ [OSetPrompt s]) (pending w).
Proof.
  destruct w as [[p l r] t q]. simpl. intros ->.
  unfold type_into, Home, result_area. simpl. destruct l; reflexivity.
Qed.

Lemma last_nonempty {A : Type} (l : list A) (a d d' : A) :
  last (a :: l) d = last (a :: l) d'.
Proof.
  revert a. induction l as [|b l IH]; intros a; [reflexivity|].
  change (last (b :: l) d = last (b :: l) d'). apply IH.
Qed.

Lemma last_cons {A : Type} (l : list A) (a d : A) :
  last (a :: l) d = last l a.
Proof.
  destruct l as [|b l]; [reflexivity|].
  change (last (b :: l) d = last (b :: l) a). apply last_nonempty.
Qed.

Lemma last_app_default {A : Type} (a b : list A) (d : A) :
  last b (last a d) = last (a ++ b) d.
Proof.
  revert d. induction a as [|x a IH]; intros d; [reflexivity|].
  rewrite <- app_comm_cons, !last_cons. apply IH.
Qed.

Lemma run_typing_absent (l : list string) (w : World) :
  result (st w) = VNull ->
  run (typing l) w =
  mkWorld (mkState (last l (prompt (st w))) (loading (st w)) VNull)
    (trace w ++ map OSetPrompt l) (pending w).
Proof.
  revert w. induction l as [|s l IH]; intros w Hr.
  - destruct w as [[p b r] t q]. simpl in *. subst r.
    rewrite app_nil_r. reflexivity.
  - unfold run, typing in *. simpl fold_left.
    rewrite type_into_absent by exact Hr.
    rewrite IH by reflexivity. simpl st. simpl trace. simpl pending.
    rewrite <- app_assoc. simpl.
    change (match l with [] => s | _ :: _ => last l (prompt (st w)) end)
      with (last (s :: l) (prompt (st w))).
    rewrite last_cons. reflexivity.
Qed.

Lemma run_app (a b : list Event) (w : World) : run (a ++ b) w = run b (run a w).
Proof. unfold run. apply fold_left_app. Qed.

(** ** One execution, computed *)

(** The world once the request has been rejected. *)
Lemma execution_failed (w : World) (e : Error) (e1 : list string) :
  run (typing e1 ++ [EFetchSettles (length (pending w)) (inl e)]) (invoke w) =
  mkWorld (mkState (last e1 (prompt (st w))) false VNull)
    (started w ++ map OSetPrompt e1 ++ failure_log e)
    (pending w).
Proof.
  rewrite run_app, invoke_spec.
  rewrite run_typing_absent by reflexivity.
  unfold run. simpl. unfold fetch_settles. simpl.
  rewrite nth_error_last. unfold resume. simpl.
  rewrite remove_at_last. unfold emit, update, started, failure_log. simpl.
  rewrite <- !app_assoc. reflexivity.
Qed.

Lemma execution_rejected (w : World) (e : Error) (e1 e2 : list string) :
  execution w (inl e) e1 e2 =
  mkWorld (mkState (last (e1 ++ e2) (prompt (st w))) false VNull)
    (started w ++ map OSetPrompt e1 ++ failure_log e ++ map OSetPrompt e2)
    (pending w).
Proof.
  unfold execution, settling.
  rewrite app_nil_r, (app_assoc (typing e1)), run_app, execution_failed.
  rewrite run_typing_absent by reflexivity. simpl.
  rewrite last_app_default, <- !app_assoc. reflexivity.
Qed.

(** The world while the body is being read. *)
Lemma execution_reading (w : World) (r : Response) (e1 : list string) :
  run (typing e1 ++ [EFetchSettles (length (pending w)) (inr r)]) (invoke w) =
  mkWorld (mkState (last e1 (prompt (st w))) true VNull)
    (started w ++ map OSetPrompt e1 ++ [OJson r])
    (pending w ++ [TJson r after_json]).
Proof.
  rewrite run_app, invoke_spec.
  rewrite run_typing_absent by reflexivity.
  unfold run. simpl. unfold fetch_settles. simpl.
  rewrite nth_error_last. unfold resume. simpl.
  rewrite remove_at_last. unfold suspend, emit, started. simpl.
  rewrite <- !app_assoc. reflexivity.
Qed.

Lemma execution_malformed (w : World) (r : Response) (e : Error)
    (e1 e2 : list string) :
  json r = inl e ->
  execution w (inr r) e1 e2 =
  mkWorld (mkState (last (e1 ++ e2) (prompt (st w))) false VNull)
    (started w ++ map OSetPrompt e1 ++ [OJson r] ++ map OSetPrompt e2
       ++ failure_log e)
    (pending w).
Proof.
  intros Hj. unfold execution, settling.
  rewrite (app_assoc (typing e1)), run_app, execution_reading, run_app.
  rewrite run_typing_absent by reflexivity.
  unfold run. simpl. unfold json_settles. simpl.
  rewrite nth_error_last. unfold resume. simpl.
  rewrite remove_at_last, Hj, last_app_default. simpl.
  unfold emit, update, failure_log. simpl.
  rewrite <- !app_assoc. reflexivity.
Qed.

Lemma execution_parsed (w : World) (r : Response) (v : value)
    (e1 e2 : list string) :
  json r = inr v ->
  execution w (inr r) e1 e2 =
  mkWorld (mkState (last (e1 ++ e2) (prompt (st w))) false v)
    (started w ++ map OSetPrompt e1 ++ [OJson r] ++ map OSetPrompt e2
       ++ [OSetResult v; OSetLoading false])
    (pending w).
Proof.
  intros Hj. unfold execution, settling.
  rewrite (app_assoc (typing e1)), run_app, execution_reading, run_app.
  rewrite run_typing_absent by reflexivity.
  unfold run. simpl. unfold json_settles. simpl.
  rewrite nth_error_last. unfold resume. simpl.
  rewrite remove_at_last, Hj, last_app_default. simpl.
  unfold emit, update. simpl.
  rewrite <- !app_assoc. reflexivity.
Qed.

(** ** Events on a rendered page *)

Lemma Home_inv (s : State) (view : Node) :
  Home s = inr view -> exists area, result_area s = inr area /\ view = page s area.
Proof.
  unfold Home. simpl. destruct (result_area s) as [e|area]; [discriminate|].
  intros [= <-]. eauto.
Qed.

Lemma type_into_spec (s : string) (w : World) :
  type_into s w =
  match Home (st w) with
  | inl _ => w
  | inr _ => mkWorld (with_prompt s (st w)) (trace w ++ [OSetPrompt s]) (pending w)
  end.
Proof.
  unfold type_into. destruct (Home (st w)) as [e|view] eqn:H; [reflexivity|].
  apply Home_inv in H as (area & _ & ->). reflexivity.
Qed.

Lemma click_spec (w : World) :
  click w =
  match Home (st w) with
  | inl _ => w
  | inr _ => if loading (st w) then w else invoke w
  end.
Proof.
  unfold click. destruct (Home (st w)) as [e|view] eqn:H; [reflexivity|].
  apply Home_inv in H as (area & _ & ->). simpl.
  destruct (loading (st w)); reflexivity.
Qed.

(** ** The invariant of the event loop *)

Lemma Inv_initial : Inv initial_world.
Proof.
  split; simpl; auto; try discriminate. split; auto.
Qed.

Lemma Inv_pending (w : World) :
  Inv w -> pending w = [] \/ exists t, pending w = [t] /\ handler_task t /\ loading (st w) = true.
Proof.
  intros [Ha Ht Hs Hi]. destruct (pending w) as [|t [|t' q]] eqn:Hp.
  - now left.
  - right. exists t. repeat split.
    + now inversion Ht.
    + destruct (loading (st w)); [reflexivity|].
      destruct Hi as [Hi _]. discriminate (Hi eq_refl).
  - simpl in Hs. lia.
Qed.

Lemma Inv_step (w : World) (ev : Event) : Inv w -> Inv (step w ev).
Proof.
  intros HI. destruct ev as [s| |i o|i]; simpl.
  - rewrite type_into_spec. destruct (Home (st w)); [exact HI|].
    destruct HI as [Ha Ht Hs Hi]. split; simpl; auto.
  - rewrite click_spec. destruct (Home (st w)); [exact HI|].
    destruct (loading (st w)) eqn:Hl; [exact HI|].
    rewrite invoke_spec. destruct HI as [Ha Ht Hs Hi].
    apply Hi in Hl. rewrite Hl. split; simpl; auto.
    + constructor; [left; reflexivity | constructor].
    + split; discriminate.
  - unfold fetch_settles.
    destruct (Inv_pending w HI) as [Hp | (t & Hp & Hk & Hl)]; rewrite Hp.
    + destruct i; exact HI.
    + destruct i as [|i]; simpl; [|destruct i; exact HI].
      destruct Hk as [-> | (r & ->)]; [|exact HI].
      unfold resume. rewrite Hp. simpl remove_at.
      destruct o as [e|r]; simpl.
      * split; simpl; auto; try discriminate. split; auto.
      * destruct HI as [Ha Ht Hs Hi]. split; simpl; auto.
        -- constructor; [right; eauto | constructor].
        -- rewrite Hl. split; discriminate.
  - unfold json_settles.
    destruct (Inv_pending w HI) as [Hp | (t & Hp & Hk & Hl)]; rewrite Hp.
    + destruct i; exact HI.
    + destruct i as [|i]; simpl; [|destruct i; exact HI].
      destruct Hk as [-> | (r & ->)]; [exact HI|].
      unfold resume. rewrite Hp. simpl remove_at.
      destruct (json r) as [e|v]; simpl;
        (split; simpl; auto; try discriminate; split; auto).
Qed.

Lemma Inv_run (evs : list Event) (w : World) : Inv w -> Inv (run evs w).
Proof.
  revert w. induction evs as [|ev evs IH]; intros w HI; [exact HI|].
  apply IH, Inv_step, HI.
Qed.

(** Under the invariant only typing moves the prompt. *)
Lemma step_prompt (w : World) (ev : Event) :
  Inv w -> is_typing ev = false -> prompt (st (step w ev)) = prompt (st w).
Proof.
  intros HI Hty. destruct ev as [s| |i o|i]; simpl; try discriminate.
  - rewrite click_spec. destruct (Home (st w)); [reflexivity|].
    destruct (loading (st w)); [reflexivity|]. now rewrite invoke_spec.
  - unfold fetch_settles.
    destruct (Inv_pending w HI) as [Hp | (t & Hp & Hk & Hl)]; rewrite Hp.
    + destruct i; reflexivity.
    + destruct i as [|i]; simpl; [|destruct i; reflexivity].
      destruct Hk as [-> | (r & ->)]; [|reflexivity].
      destruct o; reflexivity.
  - unfold json_settles.
    destruct (Inv_pending w HI) as [Hp | (t & Hp & Hk & Hl)]; rewrite Hp.
    + destruct i; reflexivity.
    + destruct i as [|i]; simpl; [|destruct i; reflexivity].
      destruct Hk as [-> | (r & ->)]; [reflexivity|].
      destruct (json r); reflexivity.
Qed.

(** Pushes a projection through a computed trace. *)
Ltac project_trace :=
  unfold started, failure_log;
  repeat (autorewrite with trace_db; simpl).

(** ** The page on concrete runs *)

Example initial_render :
  render_area initial_state = inr [DEl "div" [className "mt-8"] []] /\
  enabled (submit_control initial_state) = true /\
  attr "value" (prompt_input initial_state) = Some (AStr "").
Proof. repeat split. Qed.

Example submitting_shows_placeholder :
  let s := st (run [EType "buy winners"; EClick] initial_world) in
  s = mkState "buy winners" true VNull /\
  enabled (submit_control s) = false /\
  children_of (submit_control s) = [Text "Running..."] /\
  result_area s = inr (El "div" [className "mt-8"] [placeholder; Expr VNull]).
Proof. repeat split. Qed.

Example second_click_is_ignored :
  run [EClick; EClick] initial_world = run [EClick] initial_world.
Proof. reflexivity. Qed.

Example momentum_is_displayed :
  let events := [EType "buy winners"; EClick;
                 EFetchSettles 0 (inr (mkResponse 200 (inr momentum)));
                 EJsonSettles 0] in
  let s := st (run events initial_world) in
  s = mkState "buy winners" false momentum /\
  enabled (submit_control s) = true /\
  render_area s =
    inr [DEl "div" [className "mt-8"]
           [DEl "Card" [className "mt-4 max-w-3xl"]
              [DEl "CardContent" [className "p-4 space-y-2"]
                 [DEl "h2" [className "text-lg font-semibold"] [DText "Momentum"];
                  DEl "p" [className "text-sm text-muted-foreground"]
                    [DText "Buys winners"];
                  DEl "div" [className "pt-2"]
                    [DEl "strong" [] [DText "Sharpe:"]; DText " "; DNumber 1.2;
                     DText " | ";
                     DEl "strong" [] [DText "Win Rate:"]; DText " "; DNumber 0.55;
                     DText " | ";
                     DEl "strong" [] [DText "Avg Return:"]; DText " ";
                     DNumber 0.03];
                  DEl "div" [className "pt-2"]
                    [DEl "strong" [] [DText "Explanation:"];
                     DEl "p" [className "text-sm mt-1 whitespace-pre-line"]
                       [DText two_lines]]]]]].
Proof. repeat split. Qed.

Example malformed_body_shows_nothing :
  let bad := mkError "SyntaxError" "Unexpected token < in JSON at position 0" in
  let events := [EClick; EFetchSettles 0 (inr (mkResponse 500 (inl bad)));
                 EJsonSettles 0] in
  let w := run events initial_world in
  st w = initial_state /\
  console (trace w) = [("Failed to run strategy", bad)] /\
  render_area (st w) = inr [DEl "div" [className "mt-8"] []].
Proof. repeat split. Qed.

Example empty_object_breaks_the_page :
  Home (mkState "" false (VObj [])) =
  inl (TypeError "Cannot read properties of undefined (reading 'strategy_name')").
Proof. reflexivity. Qed.

(** * Properties of [handleRun] *)

(** C1. Once an execution of [handleRun] has settled, the handler is no longer
    suspended, [loading] is false, and exactly one of two things holds: the
    body parsed and [result] is the parsed value, or the request or the parse
    failed and [result] is [null]. *)
Theorem handleRun_settles (w : World) (o : Error + Response) (e1 e2 : list string) :
  let w' := execution w o e1 e2 in
  loading (st w') = false /\
  pending w' = pending w /\
  (holds_parsed o w' /\ ~ absent_by_failure o w' \/
   absent_by_failure o w' /\ ~ holds_parsed o w').
Proof.
  unfold holds_parsed, absent_by_failure.
  destruct o as [e|r]; simpl.
  - rewrite execution_rejected. simpl. repeat split.
    right. split; [eauto|]. intros (v & Hv & _). discriminate.
  - destruct (json r) as [e|v] eqn:Hj.
    + rewrite (execution_malformed w r e e1 e2 Hj). simpl. repeat split.
      right. split; [eauto|]. intros (v & Hv & _). discriminate.
    + rewrite (execution_parsed w r v e1 e2 Hj). simpl. repeat split.
      left. split; [eauto|]. intros (e & He & _). discriminate.
Qed.

(** C2. When the request is rejected or the body does not parse, the error is
    caught: exactly one entry is written to the console, no error escapes the
    handler, [result] stays [null] and [loading] ends false. *)
Theorem handleRun_swallows_failure
    (w : World) (o : Error + Response) (err : Error) (e1 e2 : list string) :
  outcome o = inl err ->
  let w' := execution w o e1 e2 in
  console (trace w') = console (trace w) ++ [("Failed to run strategy", err)] /\
  uncaught (trace w') = uncaught (trace w) /\
  result (st w') = VNull /\
  loading (st w') = false.
Proof.
  intros Ho. destruct o as [e|r]; simpl in Ho.
  - injection Ho as ->. simpl. rewrite execution_rejected.
    project_trace. auto.
  - simpl. rewrite (execution_malformed w r err e1 e2 Ho).
    project_trace. auto.
Qed.

Lemma handleRun_swallows_failure_witness :
  let o : Error + Response := inl (TypeError "Failed to fetch") in
  outcome o = inl (TypeError "Failed to fetch") /\
  console (trace (execution initial_world o ["a"] ["ab"])) =
    [("Failed to run strategy", TypeError "Failed to fetch")] /\
  uncaught (trace (execution initial_world o ["a"] ["ab"])) = [] /\
  result (st (execution initial_world o ["a"] ["ab"])) = VNull /\
  loading (st (execution initial_world o ["a"] ["ab"])) = false.
Proof.
  split; [reflexivity|].
  apply (handleRun_swallows_failure initial_world
           (inl (TypeError "Failed to fetch")) (TypeError "Failed to fetch")
           ["a"] ["ab"]).
  reflexivity.
Defined.

(** C3. Whatever the status code of the response and whatever value its body
    parses to, that value is stored in [result] unchanged, nothing is logged,
    and the final state does not depend on the status. *)
Theorem handleRun_stores_any_body
    (w : World) (code : Z) (v : value) (e1 e2 : list string) :
  let w' := execution w (inr (mkResponse code (inr v))) e1 e2 in
  result (st w') = v /\
  loading (st w') = false /\
  console (trace w') = console (trace w) /\
  forall code', st (execution w (inr (mkResponse code' (inr v))) e1 e2) = st w'.
Proof.
  simpl.
  rewrite (execution_parsed w (mkResponse code (inr v)) v e1 e2 eq_refl).
  simpl. repeat split.
  - project_trace. reflexivity.
  - intros code'.
    now rewrite (execution_parsed w (mkResponse code' (inr v)) v e1 e2 eq_refl).
Qed.

(** C4. A call of [handleRun] sets [loading] to true, then [result] to [null],
    then issues the request, in this order and before anything else; so a
    submission made after an earlier one has settled starts from a cleared
    result, and its final state is the same whatever the earlier one
    produced. *)
Theorem handleRun_starts_cleared (w : World) :
  trace (invoke w) =
    trace w ++ [OSetLoading true; OSetResult VNull;
                OFetch "http://localhost:8000/run-strategy"
                  (run_strategy_init (prompt (st w)))] /\
  loading (st (invoke w)) = true /\
  result (st (invoke w)) = VNull /\
  forall (o1 : Error + Response) (e1 e2 : list string),
    let w1 := execution w o1 e1 e2 in
    result (st (invoke w1)) = VNull /\
    loading (st (invoke w1)) = true /\
    forall (o1' o2 : Error + Response) (e3 e4 : list string),
      st (execution w1 o2 e3 e4) = st (execution (execution w o1' e1 e2) o2 e3 e4).
Proof.
  rewrite invoke_spec. simpl. repeat split; try (rewrite invoke_spec; reflexivity).
  intros o1' o2 e3 e4.
  assert (Hst : forall u o a b,
            st (execution u o a b) =
            mkState (last (a ++ b) (prompt (st u))) false
              match outcome o with inr v => v | inl _ => VNull end).
  { intros u o a b. destruct o as [e|r]; simpl.
    - now rewrite execution_rejected.
    - destruct (json r) as [e|v] eqn:Hj.
      + now rewrite (execution_malformed u r e a b Hj).
      + now rewrite (execution_parsed u r v a b Hj). }
  rewrite !Hst. simpl. reflexivity.
Qed.

(** C6. One execution of [handleRun] adds exactly one request to those sent:
    a POST to [http://localhost:8000/run-strategy] with the JSON content type
    and, as body, the serialised object whose only field [prompt] is the
    prompt of the calling render, whatever string that is. *)
Theorem handleRun_posts_once
    (w : World) (o : Error + Response) (e1 e2 : list string) :
  requests (trace (execution w o e1 e2)) =
  requests (trace w) ++
  [("http://localhost:8000/run-strategy",
    {| method := "POST";
       headers := [("Content-Type", "application/json")];
       body := JSON_stringify (VObj [("prompt", VStr (prompt (st w)))]) |})].
Proof.
  destruct o as [e|r].
  - rewrite execution_rejected. project_trace. reflexivity.
  - destruct (json r) as [e|v] eqn:Hj.
    + rewrite (execution_malformed w r e e1 e2 Hj). project_trace. reflexivity.
    + rewrite (execution_parsed w r v e1 e2 Hj). project_trace. reflexivity.
Qed.

(** * Properties of the rendered page *)

(** C5. In every state reached from the initial one by typing, clicks and
    settling promises, [loading] true entails that [result] is [null]; the
    result area then holds the placeholder and the [null] child only, so the
    page shows the four skeleton bars and no card. *)
Theorem loading_shows_placeholder_only (evs : list Event) :
  let s := st (run evs initial_world) in
  loading s = true ->
  result s = VNull /\
  result_area s = inr (El "div" [className "mt-8"] [placeholder; Expr VNull]) /\
  exists view,
    Home s = inr view /\ count_tag "Skeleton" view = 4 /\ count_tag "Card" view = 0.
Proof.
  intros s Hl.
  assert (Hr : result s = VNull).
  { apply (inv_absent _ (Inv_run evs initial_world Inv_initial)), Hl. }
  split; [exact Hr|].
  assert (Ha : result_area s =
               inr (El "div" [className "mt-8"] [placeholder; Expr VNull])).
  { unfold result_area. rewrite Hl, Hr. reflexivity. }
  split; [exact Ha|].
  exists (page s (El "div" [className "mt-8"] [placeholder; Expr VNull])).
  unfold Home. rewrite Ha. repeat split.
Qed.

Lemma loading_shows_placeholder_only_witness :
  loading (st (run [EClick] initial_world)) = true /\
  result (st (run [EClick] initial_world)) = VNull /\
  result_area (st (run [EClick] initial_world)) =
    inr (El "div" [className "mt-8"] [placeholder; Expr VNull]) /\
  exists view,
    Home (st (run [EClick] initial_world)) = inr view /\
    count_tag "Skeleton" view = 4 /\ count_tag "Card" view = 0.
Proof.
  split; [reflexivity|].
  apply (loading_shows_placeholder_only [EClick]). reflexivity.
Defined.

(** C7. Whenever the page renders, its button is [submit_control]: enabled
    exactly when [loading] is false, labelled by [loading] alone, and a click
    calls the handler only then; its text box is [prompt_input]: it shows
    [prompt], and typing a string makes [prompt] that very string and touches
    nothing else. *)
Theorem controls_reflect_state (w : World) (view : Node) (t : string) :
  Home (st w) = inr view ->
  find_tag "Button" view = Some (submit_control (st w)) /\
  enabled (submit_control (st w)) = negb (loading (st w)) /\
  children_of (submit_control (st w)) =
    [Text (if loading (st w) then "Running..." else "Run Strategy")] /\
  click w = (if loading (st w) then w else invoke w) /\
  find_tag "Textarea" view = Some (prompt_input (st w)) /\
  attr "value" (prompt_input (st w)) = Some (AStr (prompt (st w))) /\
  st (type_into t w) = mkState t (loading (st w)) (result (st w)).
Proof.
  intros H. rewrite click_spec, type_into_spec, H.
  apply Home_inv in H as (area & _ & ->).
  repeat split.
Qed.

Lemma controls_reflect_state_witness :
  Home (st initial_world) = inr (page initial_state
                                   (El "div" [className "mt-8"]
                                      [Expr (VBool false); Expr VNull])) /\
  enabled (submit_control (st initial_world)) = true /\
  st (type_into "momentum" initial_world) = mkState "momentum" false VNull.
Proof.
  split; [reflexivity|].
  pose proof (controls_reflect_state initial_world
                (page initial_state
                   (El "div" [className "mt-8"] [Expr (VBool false); Expr VNull]))
                "momentum" eq_refl) as (_ & He & _ & _ & _ & _ & Ht).
  split; [exact He | exact Ht].
Defined.

(** C8. An execution of [handleRun] never writes the prompt: without edits
    the prompt is the same before and after, with edits it is the last string
    typed and the prompt writes in the trace are the edits; and from any
    reachable world, an event that is not typing leaves the prompt alone. *)
Theorem handleRun_keeps_prompt
    (w : World) (o : Error + Response) (e1 e2 : list string)
    (evs : list Event) (ev : Event) :
  is_typing ev = false ->
  prompt (st (execution w o [] [])) = prompt (st w) /\
  prompt (st (execution w o e1 e2)) = last (e1 ++ e2) (prompt (st w)) /\
  prompt_writes (trace (execution w o e1 e2)) =
    prompt_writes (trace w) ++ e1 ++ e2 /\
  prompt (st (step (run evs initial_world) ev)) =
    prompt (st (run evs initial_world)).
Proof.
  intros Hty.
  assert (Hp : forall a b,
            prompt (st (execution w o a b)) = last (a ++ b) (prompt (st w)) /\
            prompt_writes (trace (execution w o a b)) =
              prompt_writes (trace w) ++ a ++ b).
  { intros a b. destruct o as [e|r].
    - rewrite execution_rejected. split; [reflexivity|].
      project_trace. reflexivity.
    - destruct (json r) as [e|v] eqn:Hj.
      + rewrite (execution_malformed w r e a b Hj). split; [reflexivity|].
        project_trace. reflexivity.
      + rewrite (execution_parsed w r v a b Hj). split; [reflexivity|].
        project_trace. reflexivity. }
  repeat split.
  - apply (Hp [] []).
  - apply Hp.
  - apply Hp.
  - apply step_prompt; [|exact Hty].
    apply Inv_run, Inv_initial.
Qed.

Lemma handleRun_keeps_prompt_witness :
  let ev := EFetchSettles 0 (inl (TypeError "Failed to fetch")) in
  is_typing ev = false /\
  prompt (st (execution initial_world (inr (mkResponse 200 (inr VNull))) [] [])) = "" /\
  prompt (st (step (run [EType "carry"; EClick] initial_world) ev)) = "carry".
Proof.
  split; [reflexivity|].
  pose proof (handleRun_keeps_prompt initial_world
                (inr (mkResponse 200 (inr VNull))) [] []
                [EType "carry"; EClick]
                (EFetchSettles 0 (inl (TypeError "Failed to fetch")))
                eq_refl) as (Ha & _ & _ & Hb).
  split; [exact Ha | exact Hb].
Defined.

(** ** Falsy results *)

(** The result area after a failed request: nothing under the [div]. *)
Lemma failed_area (w : World) (e : Error) (e1 e2 : list string) :
  render_area (st (execution w (inl e) e1 e2)) =
  inr [DEl "div" [className "mt-8"] []].
Proof. rewrite execution_rejected. reflexivity. Qed.

(** The body [0] is a falsy result, no card is built for it, and yet the
    result area shows the number: the area differs from that of a failed
    request. *)
Lemma zero_body_is_displayed :
  let ok := execution initial_world (inr (mkResponse 200 (inr (VNum 0)))) [] [] in
  let failed := execution initial_world (inl (TypeError "Failed to fetch")) [] [] in
  truthy (VNum 0) = false /\
  result (st ok) = VNum 0 /\
  result_area (st ok) =
    inr (El "div" [className "mt-8"] [Expr (VBool false); Expr (VNum 0)]) /\
  render_area (st ok) = inr [DEl "div" [className "mt-8"] [DNumber 0]] /\
  render_area (st failed) = inr [DEl "div" [className "mt-8"] []] /\
  render_area (st ok) <> render_area (st failed).
Proof.
  repeat split. intros H. vm_compute in H. discriminate H.
Qed.

(** C9, amended. A body that parses to a falsy value is stored in [result]
    and no card is built: the second child of the result area is the value
    itself. For [null], [false] and the empty string the area then shows
    nothing, exactly as after a failed request; for a falsy number it shows
    that number. *)
Theorem falsy_body_builds_no_card
    (w : World) (code : Z) (v : value) (e : Error) (e1 e2 : list string) :
  truthy v = false ->
  let s' := st (execution w (inr (mkResponse code (inr v))) e1 e2) in
  result s' = v /\
  result_area s' = inr (El "div" [className "mt-8"] [Expr (VBool false); Expr v]) /\
  render_area s' =
    inr [DEl "div" [className "mt-8"]
           match v with
           | VNum x => [DNumber x]
           | _ => []
           end] /\
  (render_area s' = render_area (st (execution w (inl e) e1 e2)) <->
   match v with VNum _ => False | _ => True end).
Proof.
  intros Hv. simpl.
  rewrite (execution_parsed w (mkResponse code (inr v)) v e1 e2 eq_refl).
  rewrite failed_area. unfold render_area, result_area, jsx_and. simpl.
  rewrite Hv. simpl.
  destruct v as [| |b|x|s|items|fields]; simpl in *; try discriminate;
    try (repeat split; tauto).
  - repeat split; try tauto. intros H. discriminate H.
  - destruct (String.eqb s ""); [|discriminate].
    repeat split; tauto.
Qed.

Lemma falsy_body_builds_no_card_witness :
  let s' := st (execution initial_world (inr (mkResponse 200 (inr (VStr "")))) [] []) in
  truthy (VStr "") = false /\
  result s' = VStr "" /\
  render_area s' = inr [DEl "div" [className "mt-8"] []].
Proof.
  split; [reflexivity|].
  pose proof (falsy_body_builds_no_card initial_world 200 (VStr "")
                (TypeError "Failed to fetch") [] [] eq_refl) as (Hr & _ & Hd & _).
  split; [exact Hr | exact Hd].
Defined.

(** ** The result card *)

Lemma get_prop_member (v : value) (k : string) :
  nullish v = false -> get_prop v k = inr (member v k).
Proof. destruct v; simpl; intros H; try discriminate; reflexivity. Qed.

Lemma truthy_not_nullish (v : value) : truthy v = true -> nullish v = false.
Proof. destruct v; simpl; intros H; try discriminate; reflexivity. Qed.

(** The card throws exactly on a nullish [strategy] or [results]. *)
Lemma result_panel_throws (v : value) :
  nullish v = false ->
  if nullish (member v "strategy") || nullish (member v "results")
  then exists e, result_panel v = inl e /\ err_name e = "TypeError"
  else exists card, result_panel v = inr card /\ count_tag "Card" card = 1.
Proof.
  intros Hv. unfold result_panel.
  rewrite !(get_prop_member v) by exact Hv.
  destruct (member v "strategy"), (member v "results"); simpl;
    eexists; split; reflexivity.
Qed.

Lemma mount_display (v : value) :
  is_display v = true -> exists d, mount_value v = inr d.
Proof.
  destruct v; simpl; intros H; try discriminate; eauto.
  destruct (String.eqb s ""); eauto.
Qed.

Lemma is_string_display (v : value) : is_string v = true -> is_display v = true.
Proof. destruct v; simpl; intros H; try discriminate; reflexivity. Qed.

(** A result accepted by the page without matching the shape: its
    [strategy] and [results] are not objects, nothing else is present, and
    the page renders, with an empty title, subtitle, metrics and
    explanation. *)
Lemma card_renders_without_object_fields :
  let v := VObj [("strategy", VNum 1); ("results", VStr "none")] in
  truthy v = true /\
  member v "strategy" = VNum 1 /\
  member v "results" = VStr "none" /\
  StrategyResult v = false /\
  (exists view, Home (mkState "" false v) = inr view /\ count_tag "Card" view = 1) /\
  exists dom, render (mkState "" false v) = inr dom.
Proof.
  repeat split; eexists; try split; reflexivity.
Qed.

(** C10, amended. For a truthy result, building the card throws a
    [TypeError] exactly when [result.strategy] or [result.results] is
    [undefined] or [null]; with any other values there (objects, but also
    numbers, strings, booleans and arrays, whose missing fields read as
    [undefined]) the component returns its tree, card included. A result of
    the [StrategyResult] shape is rendered in full. *)
Theorem result_card_partial (s : State) :
  truthy (result s) = true ->
  (if nullish (member (result s) "strategy") || nullish (member (result s) "results")
   then exists e, Home s = inl e /\ err_name e = "TypeError"
   else exists view, Home s = inr view /\ count_tag "Card" view = 1) /\
  (StrategyResult (result s) = true -> exists dom, render s = inr dom).
Proof.
  intros Ht. pose proof (truthy_not_nullish _ Ht) as Hn. split.
  - pose proof (result_panel_throws (result s) Hn) as Hp.
    unfold Home, result_area, jsx_and. rewrite Ht.
    destruct (nullish (member (result s) "strategy")
              || nullish (member (result s) "results")).
    + destruct Hp as (e & -> & He). exists e.
      split; [|exact He]. destruct (loading s); reflexivity.
    + destruct Hp as (card & -> & Hc).
      destruct (loading s); simpl; eexists; (split; [reflexivity|]);
        simpl; rewrite Hc; reflexivity.
  - unfold StrategyResult.
    destruct (member (result s) "strategy") as [| | | | | |strategy] eqn:Hs;
      try discriminate.
    destruct (member (result s) "results") as [| | | | | |results] eqn:Hr;
      try discriminate.
    intros H.
    repeat (apply andb_prop in H as [H ?]).
    repeat match goal with
           | Hi : is_string _ = true |- _ => apply is_string_display in Hi
           end.
    repeat match goal with
           | Hi : is_display _ = true |- _ =>
               apply mount_display in Hi as (? & ?)
           end.
    unfold render, Home, result_area, jsx_and, result_panel. rewrite Ht.
    rewrite !(get_prop_member (result s)) by exact Hn. rewrite Hs, Hr.
    unfold page, submit_control.
    destruct (loading s); simpl;
      repeat match goal with
             | Hi : mount_value _ = inr _ |- _ => rewrite Hi; clear Hi
             end;
      simpl; eexists; reflexivity.
Qed.

Lemma result_card_partial_witness :
  let v := VObj [("strategy", VObj [("strategy_name", VStr "Momentum");
                                    ("description", VStr "Buys winners")]);
                 ("results", VObj [("sharpe_ratio", VNum 1.5);
                                   ("win_rate", VNum 0.5);
                                   ("average_return", VStr "3%")]);
                 ("explanation", VStr "Line1")] in
  truthy v = true /\
  StrategyResult v = true /\
  exists dom, render (mkState "momentum" false v) = inr dom.
Proof.
  split; [reflexivity|]. split; [reflexivity|].
  apply (result_card_partial
           (mkState "momentum" false
              (VObj [("strategy", VObj [("strategy_name", VStr "Momentum");
                                        ("description", VStr "Buys winners")]);
                     ("results", VObj [("sharpe_ratio", VNum 1.5);
                                       ("win_rate", VNum 0.5);
                                       ("average_return", VStr "3%")]);
                     ("explanation", VStr "Line1")]))
           eq_refl).
  reflexivity.
Defined.

(** * The event loop as a whole *)

Lemma count_loading_app (b : bool) (t u : list Obs) :
  count_loading b (t ++ u) = count_loading b t + count_loading b u.
Proof.
  induction t as [|o t IH]; [reflexivity|].
  destruct o; simpl; rewrite IH; lia.
Qed.

Lemma run_snoc (evs : list Event) (ev : Event) (w : World) :
  run (evs ++ [ev]) w = step (run evs w) ev.
Proof. rewrite run_app. reflexivity. Qed.

(** Under the invariant the step function takes one of the listed steps. *)
Lemma step_Step (w : World) (ev : Event) : Inv w -> Step w ev (step w ev).
Proof.
  intros HI. destruct ev as [s| |i o|i]; simpl.
  - rewrite type_into_spec. destruct (Home (st w)); constructor.
  - rewrite click_spec. destruct (Home (st w)); [constructor|].
    destruct (loading (st w)) eqn:Hl; [constructor|].
    pose proof (proj1 (inv_idle w HI) Hl) as Hp.
    rewrite invoke_spec, Hp. simpl.
    replace (trace w ++ _) with (started w) by reflexivity.
    now constructor.
  - unfold fetch_settles.
    destruct (Inv_pending w HI) as [Hp | (t & Hp & Hk & Hl)]; rewrite Hp.
    + destruct i; constructor.
    + destruct i as [|i]; simpl; [|destruct i; constructor].
      destruct Hk as [-> | (r & ->)]; [|constructor].
      unfold resume. rewrite Hp. simpl remove_at.
      destruct o as [e|r]; simpl; unfold emit, update, suspend; simpl.
      * rewrite <- app_assoc. now constructor.
      * now constructor.
  - unfold json_settles.
    destruct (Inv_pending w HI) as [Hp | (t & Hp & Hk & Hl)]; rewrite Hp.
    + destruct i; constructor.
    + destruct i as [|i]; simpl; [|destruct i; constructor].
      destruct Hk as [-> | (r & ->)]; [constructor|].
      unfold resume. rewrite Hp. simpl remove_at.
      destruct (json r) as [e|v] eqn:Hj; simpl; unfold emit, update; simpl;
        rewrite <- app_assoc.
      * now apply Step_malformed with (r := r).
      * now apply Step_parsed with (r := r).
Qed.

(** Induction over the worlds reached from the initial one, with the events
    that led there. *)
Lemma reach_ind (P : list Event -> World -> Prop) :
  P [] initial_world ->
  (forall evs w ev w', Inv w -> P evs w -> Step w ev w' -> P (evs ++ [ev]) w') ->
  forall evs, P evs (run evs initial_world).
Proof.
  intros H0 HS evs. induction evs as [|ev evs IH] using rev_ind; [exact H0|].
  rewrite run_snoc.
  apply (HS evs (run evs initial_world)); [| exact IH |].
  - apply Inv_run, Inv_initial.
  - apply step_Step, Inv_run, Inv_initial.
Qed.

#[global] Hint Rewrite count_loading_app length_app : trace_db.

(** X1. In every reachable world at most one handler is suspended, exactly
    one while [loading] is true and none while it is false, and a suspended
    handler is [handleRun] waiting for its request or for the body. *)
Theorem one_request_in_flight (evs : list Event) :
  let w := run evs initial_world in
  length (pending w) <= 1 /\
  (loading (st w) = true <-> length (pending w) = 1) /\
  (loading (st w) = false <-> pending w = []) /\
  Forall handler_task (pending w).
Proof.
  intros w. pose proof (Inv_run evs initial_world Inv_initial) as HI.
  fold w in HI. destruct HI as [Ha Ht Hs Hi]. repeat split; auto.
  - intros Hl. destruct (pending w) as [|t [|t' q]] eqn:Hp; simpl in *; try lia.
    destruct Hi as [_ Hi]. rewrite Hi in Hl by reflexivity. discriminate.
  - intros Hn. destruct (loading (st w)); [reflexivity|].
    destruct Hi as [Hi _]. rewrite Hi in Hn by reflexivity. discriminate.
  - apply Hi.
  - apply Hi.
Qed.

(** X2. Whatever the events, no error ever escapes a handler of the page. *)
Theorem no_error_escapes (evs : list Event) :
  uncaught (trace (run evs initial_world)) = [].
Proof.
  apply (reach_ind (fun _ w => uncaught (trace w) = [])); [reflexivity|].
  intros _ w ev w' _ IH HS.
  destruct HS; simpl; project_trace; rewrite ?IH; auto.
Qed.

(** X3. The bookkeeping of requests: every request sent follows a
    [setLoading(true)], every request is either still in flight or was
    followed by [setLoading(false)], every console entry belongs to a
    finished request, and there are no more requests than clicks. *)
Theorem requests_are_accounted (evs : list Event) :
  let w := run evs initial_world in
  count_loading true (trace w) = length (requests (trace w)) /\
  length (requests (trace w)) = count_loading false (trace w) + length (pending w) /\
  length (console (trace w)) <= count_loading false (trace w) /\
  length (requests (trace w)) <= length (filter is_click evs).
Proof.
  apply (reach_ind (fun evs w =>
    count_loading true (trace w) = length (requests (trace w)) /\
    length (requests (trace w)) = count_loading false (trace w) + length (pending w) /\
    length (console (trace w)) <= count_loading false (trace w) /\
    length (requests (trace w)) <= length (filter is_click evs))).
  { simpl. lia. }
  intros evs0 w ev w' _ (H1 & H2 & H3 & H4) HS.
  rewrite filter_app, length_app.
  destruct HS as [ev| | Hl Hp | e Hp | r Hp | r e Hp Hj | r v Hp Hj];
    simpl; project_trace; rewrite ?Hp in *; simpl in *; lia.
Qed.

(** X4. Every request the page has ever sent is the POST of [handleRun] to
    the one endpoint, and the prompt in its body is the empty initial prompt
    or a string the user typed before. *)
Theorem every_request_is_a_typed_prompt (evs : list Event) :
  Forall (fun q => exists p, q = run_strategy_request p /\
                             (p = "" \/ In (EType p) evs))
         (requests (trace (run evs initial_world))).
Proof.
  assert (H : (fun evs w =>
    (prompt (st w) = "" \/ In (EType (prompt (st w))) evs) /\
    Forall (fun q => exists p, q = run_strategy_request p /\
                               (p = "" \/ In (EType p) evs))
           (requests (trace w))) evs (run evs initial_world)).
  { apply reach_ind; [simpl; auto|].
    intros evs0 w ev w' _ (Hp & Hq) HS.
    assert (Hq' : Forall (fun q => exists p, q = run_strategy_request p /\
                                   (p = "" \/ In (EType p) (evs0 ++ [ev])))
                         (requests (trace w))).
    { eapply Forall_impl; [|exact Hq]. intros q (p & -> & [->|Hi]);
        eexists; split; eauto. right. apply in_or_app. auto. }
    assert (Hp' : prompt (st w) = "" \/ In (EType (prompt (st w))) (evs0 ++ [ev])).
    { destruct Hp; auto. right. apply in_or_app. auto. }
    destruct HS; simpl; project_trace; rewrite ?app_nil_r;
      try (split; [exact Hp' | exact Hq']).
    - split; [|exact Hq']. right. apply in_or_app. right. now left.
    - split; [exact Hp'|]. apply Forall_app. split; [exact Hq'|].
      constructor; [|constructor]. exists (prompt (st w)). split; auto. }
  apply H.
Qed.

(** X5. In every reachable world [result] is [null] or the value that the
    body of a response delivered before parsed to: nothing else is ever
    stored there. *)
Theorem result_comes_from_a_response (evs : list Event) :
  let w := run evs initial_world in
  result (st w) = VNull \/
  exists i r, In (EFetchSettles i (inr r)) evs /\ json r = inr (result (st w)).
Proof.
  assert (H : (fun evs w =>
    (result (st w) = VNull \/
     exists i r, In (EFetchSettles i (inr r)) evs /\ json r = inr (result (st w))) /\
    forall r k, In (TJson r k) (pending w) ->
                exists i, In (EFetchSettles i (inr r)) evs)
    evs (run evs initial_world)).
  { apply reach_ind; [simpl; split; [auto | intros r k []]|].
    intros evs0 w ev w' _ (Hr & Hq) HS.
    assert (Hr' : result (st w) = VNull \/
                  exists i r, In (EFetchSettles i (inr r)) (evs0 ++ [ev]) /\
                              json r = inr (result (st w))).
    { destruct Hr as [|(i & r & Hi & Hj)]; auto. right. exists i, r.
      split; [apply in_or_app; auto | exact Hj]. }
    assert (Hq' : forall r k, In (TJson r k) (pending w) ->
                  exists i, In (EFetchSettles i (inr r)) (evs0 ++ [ev])).
    { intros r k Hin. destruct (Hq r k Hin) as [i Hi]. exists i.
      apply in_or_app. auto. }
    destruct HS as [ev| s | Hl Hp | e Hp | r Hp | r e Hp Hj | r v Hp Hj]; simpl.
    - split; assumption.
    - split; assumption.
    - split; [auto|]. intros r k [Hin|[]]. discriminate.
    - split; [exact Hr'|]. intros r k [].
    - split; [exact Hr'|]. intros r' k [Hin|[]]. injection Hin as <- _.
      exists 0. apply in_or_app. right. now left.
    - split; [exact Hr'|]. intros r' k [].
    - split; [|intros r' k []]. right.
      destruct (Hq' r after_json) as [i Hi]; [rewrite Hp; now left|].
      exists i, r. split; assumption. }
  apply H.
Qed.

(** ** A page that cannot render *)

Lemma Home_absent (s : State) :
  result s = VNull -> exists view, Home s = inr view.
Proof.
  intros Hr. unfold Home, result_area. rewrite Hr.
  destruct (loading s); eexists; reflexivity.
Qed.

(** X6. Once a reachable state fails to render, the page is stuck: no
    request is in flight, and no sequence of events changes anything. *)
Theorem render_error_is_permanent (evs evs' : list Event) (e : Error) :
  Home (st (run evs initial_world)) = inl e ->
  pending (run evs initial_world) = [] /\
  run evs' (run evs initial_world) = run evs initial_world.
Proof.
  pose proof (Inv_run evs initial_world Inv_initial) as HI.
  set (w := run evs initial_world) in *. intros He.
  assert (Hp : pending w = []).
  { apply (inv_idle w HI). destruct (loading (st w)) eqn:Hl; [|reflexivity].
    destruct (Home_absent (st w) (inv_absent w HI Hl)) as [view Hv].
    rewrite Hv in He. discriminate. }
  split; [exact Hp|].
  induction evs' as [|ev evs' IH]; [reflexivity|].
  change (run (ev :: evs') w) with (run evs' (step w ev)).
  replace (step w ev) with w; [exact IH|].
  destruct ev as [s| |i o|i]; simpl.
  - now rewrite type_into_spec, He.
  - now rewrite click_spec, He.
  - unfold fetch_settles. rewrite Hp. now destruct i.
  - unfold json_settles. rewrite Hp. now destruct i.
Qed.

Lemma render_error_is_permanent_witness :
  let evs := [EClick; EFetchSettles 0 (inr (mkResponse 200 (inr (VObj []))));
              EJsonSettles 0] in
  Home (st (run evs initial_world)) =
    inl (TypeError "Cannot read properties of undefined (reading 'strategy_name')") /\
  pending (run evs initial_world) = [] /\
  run [EType "again"; EClick] (run evs initial_world) = run evs initial_world.
Proof.
  split; [reflexivity|].
  apply (render_error_is_permanent
           [EClick; EFetchSettles 0 (inr (mkResponse 200 (inr (VObj []))));
            EJsonSettles 0]
           [EType "again"; EClick]
           (TypeError "Cannot read properties of undefined (reading 'strategy_name')")).
  reflexivity.
Defined.

(** ** What a rendered page contains *)

(** The card reads six members of the result and nothing else. *)
Lemma result_panel_members (v : value) :
  nullish v = false ->
  nullish (member v "strategy") = false ->
  nullish (member v "results") = false ->
  result_panel v =
  result_panel
    (canonical (member (member v "strategy") "strategy_name")
               (member (member v "strategy") "description")
               (member (member v "results") "sharpe_ratio")
               (member (member v "results") "win_rate")
               (member (member v "results") "average_return")
               (member v "explanation")).
Proof.
  intros Hv Hs Hr. unfold result_panel.
  rewrite !(get_prop_member v) by exact Hv. simpl.
  rewrite !(get_prop_member (member v "strategy")) by exact Hs.
  rewrite !(get_prop_member (member v "results")) by exact Hr.
  reflexivity.
Qed.

(** X7. For every state whose page renders, the tree holds one text box and
    one button, the four skeleton bars exactly when [loading] is true, and
    one card exactly when [result] is truthy. *)
Theorem view_follows_state (s : State) (view : Node) :
  Home s = inr view ->
  count_tag "Textarea" view = 1 /\
  count_tag "Button" view = 1 /\
  count_tag "Skeleton" view = (if loading s then 4 else 0) /\
  count_tag "Card" view = (if truthy (result s) then 1 else 0).
Proof.
  unfold Home, result_area, jsx_and.
  destruct (truthy (result s)) eqn:Ht.
  - pose proof (truthy_not_nullish _ Ht) as Hn.
    pose proof (result_panel_throws (result s) Hn) as Hp.
    destruct (nullish (member (result s) "strategy")) eqn:Hs;
      [destruct Hp as (e & -> & _); destruct (loading s); discriminate|].
    destruct (nullish (member (result s) "results")) eqn:Hr;
      [destruct Hp as (e & -> & _); destruct (loading s); discriminate|].
    rewrite (result_panel_members (result s) Hn Hs Hr).
    destruct (loading s); simpl; intros [= <-]; repeat split.
  - destruct (loading s); simpl; intros [= <-]; repeat split.
Qed.

Lemma view_follows_state_witness :
  let s := mkState "carry" true (canonical (VStr "a") VNull VNull VNull VNull VNull) in
  exists view,
    Home s = inr view /\
    count_tag "Textarea" view = 1 /\
    count_tag "Button" view = 1 /\
    count_tag "Skeleton" view = 4 /\
    count_tag "Card" view = 1.
Proof.
  eexists. split; [reflexivity|].
  apply (view_follows_state
           (mkState "carry" true (canonical (VStr "a") VNull VNull VNull VNull VNull))).
  reflexivity.
Defined.

(** A value in child position is refused exactly when it holds an object. *)
Lemma mount_value_spec :
  forall v : value,
    if has_object v
    then exists e, mount_value v = inl e
    else exists d, mount_value v = inr d.
Proof.
  fix IH 1. intros [| |b|x|s|items|fields]; simpl; eauto.
  - destruct (String.eqb s ""); eauto.
  - induction items as [|i items IHl]; simpl; [eauto|].
    specialize (IH i). destruct (has_object i); simpl.
    + destruct IH as [e ->]. simpl. eauto.
    + destruct IH as [d ->]. simpl.
      match goal with
      | |- context [if ?c then _ else _] => destruct c
      end.
      * destruct IHl as [e ->]. simpl. eauto.
      * destruct IHl as [d' ->]. simpl. eauto.
Qed.

Lemma render_card (p : string) (l : bool) (r a1 a2 a3 a4 a5 a6 : value) :
  truthy r = true ->
  result_panel r = result_panel (canonical a1 a2 a3 a4 a5 a6) ->
  (exists dom, render (mkState p l r) = inr dom) <->
  negb (has_object a1) && negb (has_object a2) && negb (has_object a3) &&
  negb (has_object a4) && negb (has_object a5) && negb (has_object a6) = true.
Proof.
  intros Ht Hp. unfold render, Home, result_area, jsx_and. simpl result.
  rewrite Ht, Hp. unfold page, submit_control, result_panel, canonical.
  pose proof (mount_value_spec a1) as H1. pose proof (mount_value_spec a2) as H2.
  pose proof (mount_value_spec a3) as H3. pose proof (mount_value_spec a4) as H4.
  pose proof (mount_value_spec a5) as H5. pose proof (mount_value_spec a6) as H6.
  destruct l; simpl;
    destruct (has_object a1), H1 as [x1 H1]; rewrite H1; simpl;
    try (split; [intros [dom H]; discriminate H | discriminate]);
    destruct (has_object a2), H2 as [x2 H2]; rewrite H2; simpl;
    try (split; [intros [dom H]; discriminate H | discriminate]);
    destruct (has_object a3), H3 as [x3 H3]; rewrite H3; simpl;
    try (split; [intros [dom H]; discriminate H | discriminate]);
    destruct (has_object a4), H4 as [x4 H4]; rewrite H4; simpl;
    try (split; [intros [dom H]; discriminate H | discriminate]);
    destruct (has_object a5), H5 as [x5 H5]; rewrite H5; simpl;
    try (split; [intros [dom H]; discriminate H | discriminate]);
    destruct (has_object a6), H6 as [x6 H6]; rewrite H6; simpl;
    try (split; [intros [dom H]; discriminate H | discriminate]);
    split; eauto.
Qed.

(** X8. A state is displayed without error exactly when its result is
    [displayable]: falsy, or truthy with [strategy] and [results] neither
    [undefined] nor [null] and no plain object among the six displayed
    members. *)
Theorem render_succeeds_iff_displayable (s : State) :
  (exists dom, render s = inr dom) <-> displayable (result s) = true.
Proof.
  destruct s as [p l r]. unfold displayable. simpl result.
  destruct (truthy r) eqn:Ht.
  - pose proof (truthy_not_nullish _ Ht) as Hn.
    pose proof (result_panel_throws r Hn) as Hp.
    destruct (nullish (member r "strategy")) eqn:Hs.
    { destruct Hp as (e & Hp & _). unfold render, Home, result_area, jsx_and.
      simpl. rewrite Ht, Hp.
      split; [intros [dom H]; destruct l; discriminate H | discriminate]. }
    destruct (nullish (member r "results")) eqn:Hr.
    { destruct Hp as (e & Hp & _). unfold render, Home, result_area, jsx_and.
      simpl. rewrite Ht, Hp.
      split; [intros [dom H]; destruct l; discriminate H | discriminate]. }
    simpl negb. rewrite !andb_true_l.
    apply render_card; [exact Ht|].
    apply result_panel_members; assumption.
  - split; [reflexivity|]. intros _.
    unfold render, Home, result_area, jsx_and. simpl. rewrite Ht.
    destruct r as [| |b|x|str|items|fields]; simpl in Ht; try discriminate;
      destruct l; simpl; eauto.
    + destruct (String.eqb str ""); [simpl; eauto | discriminate].
    + destruct (String.eqb str ""); [simpl; eauto | discriminate].
Qed.

(** X9. The page reads only [strategy], [results] and [explanation] of a
    truthy result: two results that agree on these three members give the
    same tree, or the same error, whatever else they hold. *)
Theorem other_fields_are_ignored (p : string) (l : bool) (v v' : value) :
  truthy v = true -> truthy v' = true ->
  member v "strategy" = member v' "strategy" ->
  member v "results" = member v' "results" ->
  member v "explanation" = member v' "explanation" ->
  Home (mkState p l v) = Home (mkState p l v').
Proof.
  intros Ht Ht' Hs Hr He.
  pose proof (truthy_not_nullish _ Ht) as Hn.
  pose proof (truthy_not_nullish _ Ht') as Hn'.
  assert (Hp : result_panel v = result_panel v').
  { unfold result_panel.
    rewrite !(get_prop_member v) by exact Hn.
    rewrite !(get_prop_member v') by exact Hn'.
    rewrite Hs, Hr, He. reflexivity. }
  unfold Home, result_area, jsx_and. simpl result. rewrite Ht, Ht', Hp.
  reflexivity.
Qed.

Lemma other_fields_are_ignored_witness :
  let v := VObj [("strategy", VNum 1); ("results", VNum 2)] in
  let v' := VObj [("id", VStr "42"); ("results", VNum 2); ("strategy", VNum 1);
                  ("note", VNull)] in
  truthy v = true /\ truthy v' = true /\
  Home (mkState "carry" false v) = Home (mkState "carry" false v').
Proof.
  split; [reflexivity|]. split; [reflexivity|].
  apply (other_fields_are_ignored "carry" false
           (VObj [("strategy", VNum 1); ("results", VNum 2)])
           (VObj [("id", VStr "42"); ("results", VNum 2); ("strategy", VNum 1);
                  ("note", VNull)]));
    reflexivity.
Defined.

(** X10. The page never stays loading: from every reachable world, once the
    promise of the request and that of the body have settled, whatever the
    request settles to, [loading] is false and no handler is suspended. *)
Theorem loading_always_ends (evs : list Event) (o : Error + Response) :
  let w' := run [EFetchSettles 0 o; EJsonSettles 0] (run evs initial_world) in
  loading (st w') = false /\ pending w' = [].
Proof.
  pose proof (Inv_run evs initial_world Inv_initial) as HI.
  set (w := run evs initial_world) in *.
  unfold run. simpl.
  destruct (Inv_pending w HI) as [Hp | (t & Hp & [-> | (r & ->)] & Hl)].
  - unfold fetch_settles. rewrite Hp. simpl.
    unfold json_settles. rewrite Hp. simpl.
    split; [apply (inv_idle w HI), Hp | exact Hp].
  - unfold fetch_settles. rewrite Hp. simpl.
    unfold resume. rewrite Hp. simpl remove_at.
    destruct o as [e|r]; simpl.
    + split; reflexivity.
    + unfold json_settles. simpl. destruct (json r); simpl; split; reflexivity.
  - unfold fetch_settles. rewrite Hp. simpl.
    unfold json_settles. rewrite Hp. simpl.
    unfold resume. rewrite Hp. simpl remove_at.
    destruct (json r); simpl; split; reflexivity.
Qed.
